(** * file-share-cli: the upload and download flows of [src/cli.ts]

    The class [Cli] drives four collaborators (Google Drive, the record
    database, bcrypt and the shared-key generator) and a terminal front end.
    Its two flows, [handleFileUpload] and [handleFileDownload], are embedded
    as programs of a small monad that threads the collaborators' states and
    the user's pending keyboard input, records every terminal output and
    every collaborator call in a chronological trace, and carries
    JavaScript's exceptions ([throw], [try]/[catch]). The method [run] only
    picks one of the two flows. *)

From Stdlib Require Import Strings.Ascii Strings.String.
From stdpp Require Import base option list strings gmap pretty.

Local Open Scope string_scope.
Local Open Scope list_scope.

(** ** Values *)

(** A thrown JavaScript [Error]: its [name] and its [message]. *)
Record Error := mkError { name : string; message : string }.

(** [new Error(msg)] *)
Definition new_Error (msg : string) : Error := mkError "Error" msg.

(** The row [db.getSecureFile] yields; the flow reads [hashedPassCode] and
    [fileId] from it. *)
Record SecureFile := mkSecureFile {
  hashedPassCode : string;
  sharedKey : string;
  fileId : string
}.

(** What [googleDriveService.uploadFile] resolves to; the flow reads [id]. *)
Record DriveFile := mkDriveFile { id : string }.

(** A settled promise of a collaborator. *)
Inductive Settled (A : Type) : Type :=
| Resolved (a : A)
| Rejected (e : Error).
Arguments Resolved {A} a.
Arguments Rejected {A} e.

(** JavaScript truthiness of a string: [!value] holds of the empty string. *)
Definition falsy (value : string) : bool :=
  match value with
  | EmptyString => true
  | String _ _ => false
  end.

(** [!fileName] for a name that may be [null] or [undefined]. *)
Definition falsy_name (fileName : option string) : bool :=
  match fileName with
  | None => true
  | Some s => falsy s
  end.

(** Past the check [if (!fileName) throw ...] the name is a string. *)
Definition narrowed (fileName : option string) : string :=
  match fileName with
  | Some s => s
  | None => EmptyString
  end.

(** ** Trace *)

Inductive ServiceCall : Type :=
| GenerateSharedKey
| HashPasscode (passcode : string)
| ComparePasscode (passcode hashed : string)
| UploadFile (filePath : string)
| CreateSecureFile (hashed key file : string)
| GetSecureFile (key : string)
| GetFileMetadata (file : string)
| DownloadFile (file destinationPath : string).

Inductive Event : Type :=
| PromptShown (msg : string)
| ValidationShown (msg : string)
| SpinnerStart (msg : string)
| SpinnerStop (msg : string)
| NoteShown (msg title : string)
| ConsoleError (label : string) (error : Error)
| Invoked (call : ServiceCall).

(** What the person at the terminal sees: everything but the calls. *)
Definition visible (ev : Event) : bool :=
  match ev with
  | Invoked _ => false
  | _ => true
  end.

Definition screen (t : list Event) : list Event := List.filter visible t.

(** ** Collaborators

    Their sources are not part of [cli.ts]; each is an interface over a
    state of its own. A call may change that state whether it resolves or
    rejects. *)

Record GoogleDriveService (G : Type) := {
  uploadFile : string -> G -> Settled DriveFile * G;
  getFileMetadata : string -> G -> Settled (option string) * G;
  downloadFile : string -> string -> G -> Settled unit * G
}.
Arguments uploadFile {G} _ _ _.
Arguments getFileMetadata {G} _ _ _.
Arguments downloadFile {G} _ _ _ _.

Record DBService (D : Type) := {
  createSecureFile : string -> string -> string -> D -> Settled SecureFile * D;
  getSecureFile : string -> D -> Settled (option SecureFile) * D
}.
Arguments createSecureFile {D} _ _ _ _ _.
Arguments getSecureFile {D} _ _ _.

Record BCrypt (E : Type) := {
  hashPasscode : string -> E -> Settled string * E;
  comparePasscode : string -> string -> E -> Settled bool * E
}.
Arguments hashPasscode {E} _ _ _.
Arguments comparePasscode {E} _ _ _ _.

(** The imported modules [./utils], [fs], [os] and [path]. *)
Record Modules (E : Type) := {
  generateSharedKey : E -> Settled string * E;
  existsSync : string -> bool;
  homedir : string;
  path_join : string -> string -> string
}.
Arguments generateSharedKey {E} _ _.
Arguments existsSync {E} _ _.
Arguments homedir {E} _.
Arguments path_join {E} _ _ _.

(** The fields the constructor of [Cli] fills in, and the modules in scope. *)
Record Cli (D G E : Type) := {
  googleDriveService : GoogleDriveService G;
  db : DBService D;
  bcrypt : BCrypt E;
  modules : Modules E
}.
Arguments googleDriveService {D G E} _.
Arguments db {D G E} _.
Arguments bcrypt {D G E} _.
Arguments modules {D G E} _.

(** ** The monad of the flows *)

(** The world a flow runs in: the collaborators' states and the lines the
    user is still going to submit at the prompts. *)
Record World (D G E : Type) := mkWorld {
  records : D;
  remote : G;
  entropy : E;
  stdin : list string
}.
Arguments mkWorld {D G E} _ _ _ _.
Arguments records {D G E} _.
Arguments remote {D G E} _.
Arguments entropy {D G E} _.
Arguments stdin {D G E} _.

(** How an [async] function stands when the script of inputs is used up:
    it returned, it threw, or it is still waiting at a prompt. *)
Inductive Outcome (A : Type) : Type :=
| Returned (a : A)
| Thrown (e : Error)
| AwaitingInput.
Arguments Returned {A} a.
Arguments Thrown {A} e.
Arguments AwaitingInput {A}.

Record Run (W A : Type) := mkRun {
  outcome : Outcome A;
  world : W;
  trace : list Event
}.
Arguments mkRun {W A} _ _ _.
Arguments outcome {W A} _.
Arguments world {W A} _.
Arguments trace {W A} _.

Definition M (W A : Type) : Type := W -> Run W A.

Definition ret {W A} (a : A) : M W A := fun w => mkRun (Returned a) w [].

(** A run that comes after the events [t]. *)
Definition after {W A} (t : list Event) (r : Run W A) : Run W A :=
  mkRun (outcome r) (world r) (t ++ trace r).

(** [const a = await m; k(a)]: a rejection or a prompt left unanswered
    ends the function there. *)
Definition bind {W A B} (m : M W A) (k : A -> M W B) : M W B := fun w =>
  let r := m w in
  match outcome r with
  | Returned a => after (trace r) (k a (world r))
  | Thrown e => mkRun (Thrown e) (world r) (trace r)
  | AwaitingInput => mkRun AwaitingInput (world r) (trace r)
  end.

(** [throw e] *)
Definition throw {W A} (e : Error) : M W A := fun w => mkRun (Thrown e) w [].

(** [try { body } catch (error) { handler }] *)
Definition try_catch {W A} (body : M W A) (handler : Error -> M W A) : M W A :=
  fun w =>
  let r := body w in
  match outcome r with
  | Thrown e => after (trace r) (handler e (world r))
  | _ => r
  end.

Definition emit {W} (ev : Event) : M W unit := fun w => mkRun (Returned tt) w [ev].

Declare Scope flow_scope.
Delimit Scope flow_scope with flow.
Notation "x <- m ;; k" := (bind m (fun x => k))
  (at level 100, m at next level, right associativity) : flow_scope.
Notation "m ;; k" := (bind m (fun _ => k))
  (at level 100, right associativity) : flow_scope.

(** ** Terminal front end *)

(** The rounds of a validated [text] prompt of [@clack/prompts] over the
    pending input: a submission the validator answers with a message is
    shown that message and asked again; the first submission it lets pass
    is the prompt's value. When the pending input runs out the prompt is
    left waiting. Cancelling a prompt is not part of the model. *)
Fixpoint text_rounds (validate : string -> option string) (pending : list string)
  : Outcome string * list string * list Event :=
  match pending with
  | [] => (AwaitingInput, [], [])
  | value :: rest =>
      match validate value with
      | Some msg =>
          let '(o, rest', evs) := text_rounds validate rest in
          (o, rest', ValidationShown msg :: evs)
      | None => (Returned value, rest, [])
      end
  end.

Section Flows.

Context {D G E : Type}.
Variable this : Cli D G E.

Local Abbreviation Flow := (M (World D G E)).
Local Open Scope flow_scope.

(** [text({ message, validate })] *)
Definition text (msg : string) (validate : string -> option string) : Flow string :=
  fun w =>
  let '(o, rest, evs) := text_rounds validate (stdin w) in
  mkRun o (mkWorld (records w) (remote w) (entropy w) rest) (PromptShown msg :: evs).

(** [prompts({ type: 'invisible', name: 'passcode', message })]: no
    validator, the submitted line is the passcode. *)
Definition prompts_invisible (msg : string) : Flow string := fun w =>
  match stdin w with
  | [] => mkRun AwaitingInput w [PromptShown msg]
  | value :: rest =>
      mkRun (Returned value) (mkWorld (records w) (remote w) (entropy w) rest)
            [PromptShown msg]
  end.

Definition s_start (msg : string) : Flow unit := emit (SpinnerStart msg).
Definition s_stop (msg : string) : Flow unit := emit (SpinnerStop msg).
Definition note (msg title : string) : Flow unit := emit (NoteShown msg title).
Definition console_error (label : string) (error : Error) : Flow unit :=
  emit (ConsoleError label error).

(** ** Calls to the collaborators

    A call is recorded in the trace, the collaborator's state is replaced
    by the one it leaves, and a rejection becomes a [throw] at the [await]. *)

Definition settle {A} (s : Settled A) : Outcome A :=
  match s with
  | Resolved a => Returned a
  | Rejected e => Thrown e
  end.

Definition on_records {A} (c : ServiceCall) (f : D -> Settled A * D) : Flow A := fun w =>
  let '(s, d) := f (records w) in
  mkRun (settle s) (mkWorld d (remote w) (entropy w) (stdin w)) [Invoked c].

Definition on_remote {A} (c : ServiceCall) (f : G -> Settled A * G) : Flow A := fun w =>
  let '(s, g) := f (remote w) in
  mkRun (settle s) (mkWorld (records w) g (entropy w) (stdin w)) [Invoked c].

Definition on_entropy {A} (c : ServiceCall) (f : E -> Settled A * E) : Flow A := fun w =>
  let '(s, e) := f (entropy w) in
  mkRun (settle s) (mkWorld (records w) (remote w) e (stdin w)) [Invoked c].

(** ** [class Cli] *)

Definition askPassword (msg : string) : Flow string :=
  prompts_invisible msg.

Definition validate_filePath (value : string) : option string :=
  if falsy value then Some "File path cannot be empty"
  else if negb (existsSync (modules this) value) then Some "File does not exist"
  else None.

Definition getFilePathAndPassCode : Flow (string * string * string) :=
  filePath <- text "Please enter the file path:" validate_filePath ;;
  passcode <- askPassword "Set a passcode" ;;
  s_start "Generating a shared key..." ;;
  sharedKey <- on_entropy GenerateSharedKey (generateSharedKey (modules this)) ;;
  s_stop ("Shared key: " +:+ sharedKey) ;;
  ret (filePath, passcode, sharedKey).

Definition handleFileUpload : Flow unit :=
  fps <- getFilePathAndPassCode ;;
  let '(filePath, passcode, sharedKey) := fps in
  hashedPassCode <- on_entropy (HashPasscode passcode)
                      (hashPasscode (bcrypt this) passcode) ;;
  s_start "Processing file..." ;;
  try_catch
    (file <- on_remote (UploadFile filePath)
               (uploadFile (googleDriveService this) filePath) ;;
     let fileId := id file in
     newSecureFile <- on_records (CreateSecureFile hashedPassCode sharedKey fileId)
                        (createSecureFile (db this) hashedPassCode sharedKey fileId) ;;
     s_stop "File successfully uploaded!" ;;
     note "Share the passcode and shared key to the user who will download the file"
          "info")
    (fun error =>
     s_stop "File upload failed!" ;;
     console_error "Error uploading file:" error).

Definition validate_sharedKey (value : string) : option string :=
  if falsy value then Some "Must provide the shared key" else None.

Definition handleFileDownload : Flow unit :=
  sharedKey <- text "Enter the shared key:" validate_sharedKey ;;
  enteredPasscode <- askPassword "Enter your passcode to get download link" ;;
  s_start "Varifying passcode..." ;;
  file <- on_records (GetSecureFile sharedKey) (getSecureFile (db this) sharedKey) ;;
  match file with
  | None => s_stop "Wrong shared key!"
  | Some file =>
      validatePassCode <- on_entropy (ComparePasscode enteredPasscode (hashedPassCode file))
                            (comparePasscode (bcrypt this) enteredPasscode
                                             (hashedPassCode file)) ;;
      if negb validatePassCode then s_stop "Wrong passcode!"
      else
        s_stop "Success!" ;;
        let fileId := fileId file in
        s_start "Downloading..." ;;
        try_catch
          (fileName <- on_remote (GetFileMetadata fileId)
                         (getFileMetadata (googleDriveService this) fileId) ;;
           if falsy_name fileName then throw (new_Error "Could not retrieve the file name.")
           else
             let fileName := narrowed fileName in
             let downloadsFolder := path_join (modules this) (homedir (modules this)) "Downloads" in
             let destinationPath := path_join (modules this) downloadsFolder fileName in
             on_remote (DownloadFile fileId destinationPath)
               (downloadFile (googleDriveService this) fileId destinationPath) ;;
             s_stop ("File downloaded to: " +:+ destinationPath))
          (fun error =>
           console_error "Error downloading file:" error ;;
           note "Failed to download file" "error")
  end.

End Flows.

(** ** What the terminal shows

    The screens the theorems speak of, as the lists of events the flows
    leave on the terminal; [evs] are the validator's complaints during the
    first prompt. *)

(** The download flow up to the lookup. *)
Definition download_prompts (evs : list Event) : list Event :=
  PromptShown "Enter the shared key:" :: evs ++
  [PromptShown "Enter your passcode to get download link";
   SpinnerStart "Varifying passcode..."].

(** The upload flow up to the [try] block. *)
Definition upload_preamble (evs : list Event) (key : string) : list Event :=
  PromptShown "Please enter the file path:" :: evs ++
  [PromptShown "Set a passcode";
   SpinnerStart "Generating a shared key...";
   SpinnerStop ("Shared key: " +:+ key);
   SpinnerStart "Processing file..."].

(** What the [catch] block of the upload flow adds for the error it caught. *)
Definition failed_upload_screen (evs : list Event) (key : string) (err : Error)
  : list Event :=
  upload_preamble evs key ++
  [SpinnerStop "File upload failed!"; ConsoleError "Error uploading file:" err].

(** What the [catch] block of the download flow adds for the error it caught. *)
Definition failed_download_screen (evs : list Event) (err : Error) : list Event :=
  download_prompts evs ++
  [SpinnerStop "Success!"; SpinnerStart "Downloading...";
   ConsoleError "Error downloading file:" err;
   NoteShown "Failed to download file" "error"].

(** One of the two messages of a failed credential check is on the screen. *)
Definition credential_failure_shown (t : list Event) : Prop :=
  SpinnerStop "Wrong shared key!" ∈ t \/ SpinnerStop "Wrong passcode!" ∈ t.

(** The calls that reach the storage backend. *)
Definition touches_storage (c : ServiceCall) : bool :=
  match c with
  | UploadFile _ | GetFileMetadata _ | DownloadFile _ _ => true
  | _ => false
  end.

Section StorageStage.

Context {D G E : Type}.
Variable this : Cli D G E.

(** The storage stage of the download flow, the [try] block, fails from the
    storage state [g] with the error [err] and leaves the state [g']: the
    metadata call rejects, or it yields no name, or the download rejects. *)
Inductive storage_stage_fails (g : G) (file : string) : Error -> G -> Prop :=
| metadata_rejects err g' :
    getFileMetadata (googleDriveService this) file g = (Rejected err, g') ->
    storage_stage_fails g file err g'
| name_is_falsy fileName g' :
    getFileMetadata (googleDriveService this) file g = (Resolved fileName, g') ->
    falsy_name fileName = true ->
    storage_stage_fails g file (new_Error "Could not retrieve the file name.") g'
| download_rejects fileName g' err g'' :
    getFileMetadata (googleDriveService this) file g = (Resolved (Some fileName), g') ->
    falsy fileName = false ->
    downloadFile (googleDriveService this) file
      (path_join (modules this)
         (path_join (modules this) (homedir (modules this)) "Downloads") fileName) g'
      = (Rejected err, g'') ->
    storage_stage_fails g file err g''.

End StorageStage.

(** The collaborator methods each flow has in its body. *)
Definition upload_method (c : ServiceCall) : bool :=
  match c with
  | GenerateSharedKey | HashPasscode _ | UploadFile _ | CreateSecureFile _ _ _ => true
  | _ => false
  end.

Definition download_method (c : ServiceCall) : bool :=
  match c with
  | GetSecureFile _ | ComparePasscode _ _ | GetFileMetadata _ | DownloadFile _ _ => true
  | _ => false
  end.

(** What the file-path prompt answers a submission it turns down. *)
Definition filePath_complaint (value : string) : Event :=
  ValidationShown
    (if falsy value then "File path cannot be empty" else "File does not exist").

(** ** [run]: the menu around the two flows *)

(** What the menu of [run] resolves to: one of its two options, or the
    cancel symbol of a menu left without a choice, which the cast
    [as 'upload' | 'download'] lets through. *)
Inductive Selection : Type :=
| Upload
| Download
| Cancelled.

(** The terminal of a whole session: the frame [run] adds around the events
    of the flow it starts. *)
Inductive SessionEvent : Type :=
| IntroShown (title : string)
| MenuShown (msg : string) (options : list (string * string))
| OutroShown (msg : string)
| InFlow (ev : Event).

Record Session (W : Type) := mkSession {
  ended : Outcome unit;
  left_world : W;
  shown : list SessionEvent
}.
Arguments mkSession {W} _ _ _.
Arguments ended {W} _.
Arguments left_world {W} _.
Arguments shown {W} _.

Section Run.

Context {D G E : Type}.
Variable this : Cli D G E.

(** [const actionMap = { upload: ..., download: ... }]: no entry for a
    value that is neither key. *)
Definition actionMap (action : Selection) : option (M (World D G E) unit) :=
  match action with
  | Upload => Some (handleFileUpload this)
  | Download => Some (handleFileDownload this)
  | Cancelled => None
  end.

(** [run], for the value [action] the menu resolves to:
    [intro]; [select]; [await actionMap[action]?.()]; [outro]. A flow that
    throws, or waits at a prompt, keeps [run] from reaching [outro]. *)
Definition run (action : Selection) (w : World D G E) : Session (World D G E) :=
  let opening :=
    [IntroShown "Choose an option:";
     MenuShown "What would you like to do?"
       [("upload", "Upload a file"); ("download", "Download a file")]] in
  match actionMap action with
  | Some handler =>
      let r := handler w in
      match outcome r with
      | Returned _ =>
          mkSession (Returned tt) (world r)
            (opening ++ map InFlow (trace r) ++ [OutroShown "🫡"])
      | Thrown e => mkSession (Thrown e) (world r) (opening ++ map InFlow (trace r))
      | AwaitingInput =>
          mkSession AwaitingInput (world r) (opening ++ map InFlow (trace r))
      end
  | None => mkSession (Returned tt) w (opening ++ [OutroShown "🫡"])
  end.

End Run.

(** ** The collaborators as the specification describes them

    [cli.ts] imports [./dbService], [./bcrypt], [./utils] and
    [./googleDriveService]; the module below gives the four of them the
    behaviour of the specification's components, for running the flows on
    concrete worlds. *)

Module SpecModel.

Definition InvalidInput : Error := mkError "InvalidInput" "passcode is empty".
Definition MalformedDigest : Error := mkError "MalformedDigest" "corrupt digest".
Definition DuplicateKey : Error := mkError "DuplicateKey" "shared key already exists".
Definition StorageFailure (msg : string) : Error := mkError "StorageFailure" msg.
Definition Fatal : Error := mkError "Fatal" "entropy source exhausted".

(** The random tokens the entropy source hands out next. *)
Definition Entropy : Type := list string.

(** Modelled from the spec: [generateSharedKey] of [./utils] (KeyGenerator,
    section 4.1): draws a token from the entropy source, no other effect; it
    fails only when the source is exhausted. *)
Definition generate (e : Entropy) : Settled string * Entropy :=
  match e with
  | [] => (Rejected Fatal, [])
  | token :: e' => (Resolved token, e')
  end.

(** The digest [salt$body], read back: the salt is what precedes the first
    [$]. A string without [$] is a corrupt digest. *)
Fixpoint split_digest (hashed : string) : option (string * string) :=
  match hashed with
  | EmptyString => None
  | String c rest =>
      if Ascii.eqb c "$"%char then Some (EmptyString, rest)
      else match split_digest rest with
           | Some (salt, body) => Some (String c salt, body)
           | None => None
           end
  end.

Definition well_formed (hashed : string) : Prop := is_Some (split_digest hashed).

Section PasscodeHasher.

(** The slow one-way function of the hashing scheme, salt first. *)
Variable kdf : string -> string -> string.

(** Modelled from the spec: [hashPasscode] of [./bcrypt] (PasscodeHasher.hash,
    section 4.2): rejects the empty passcode with [InvalidInput], otherwise
    draws a fresh salt and embeds it in the digest. *)
Definition hash (passcode : string) (e : Entropy) : Settled string * Entropy :=
  if falsy passcode then (Rejected InvalidInput, e)
  else match e with
       | [] => (Rejected Fatal, [])
       | salt :: e' => (Resolved (salt +:+ "$" +:+ kdf salt passcode), e')
       end.

(** Modelled from the spec: [comparePasscode] of [./bcrypt]
    (PasscodeHasher.verify, section 4.2): recomputes with the salt embedded
    in the digest and compares; a mismatch is the value [false], only a
    corrupt digest is an error. *)
Definition verify (passcode hashed : string) (e : Entropy) : Settled bool * Entropy :=
  match split_digest hashed with
  | None => (Rejected MalformedDigest, e)
  | Some (salt, body) => (Resolved (String.eqb (kdf salt passcode) body), e)
  end.

Definition bcrypt_model : BCrypt Entropy :=
  {| hashPasscode := hash; comparePasscode := verify |}.

End PasscodeHasher.

(** The record store: its rows by shared key, and a fault to inject into
    the next writes. *)
Record Store := mkStore {
  rows : gmap string SecureFile;
  write_fault : option Error
}.

(** Modelled from the spec: [createSecureFile] of [./dbService]
    (SecureRecordStore.put, section 4.3): one atomic insert, refused with
    [DuplicateKey] when the shared key exists. *)
Definition put (hashed key file : string) (st : Store) : Settled SecureFile * Store :=
  match write_fault st with
  | Some e => (Rejected e, st)
  | None =>
      match rows st !! key with
      | Some _ => (Rejected DuplicateKey, st)
      | None =>
          let row := mkSecureFile hashed key file in
          (Resolved row, mkStore (<[key := row]> (rows st)) None)
      end
  end.

(** Modelled from the spec: [getSecureFile] of [./dbService]
    (SecureRecordStore.get, section 4.3): a pure lookup, a miss is a value. *)
Definition get (key : string) (st : Store) : Settled (option SecureFile) * Store :=
  (Resolved (rows st !! key), st).

Definition db_model : DBService Store :=
  {| createSecureFile := put; getSecureFile := get |}.

(** The storage backend and the local disk it reads from and writes to. *)
Record Storage := mkStorage {
  files : gmap string (string * string);   (* handle to display name, content *)
  disk : gmap string string;               (* local path to content *)
  issued : nat;                            (* handles given out so far *)
  outage : option Error
}.

Fixpoint has_slash (s : string) : bool :=
  match s with
  | EmptyString => false
  | String c rest => Ascii.eqb c "/"%char || has_slash rest
  end.

(** The last segment of a path. *)
Fixpoint basename (s : string) : string :=
  match s with
  | EmptyString => EmptyString
  | String c rest =>
      if has_slash rest then basename rest
      else if Ascii.eqb c "/"%char then rest
      else s
  end.

(** Modelled from the spec: [uploadFile] of [./googleDriveService]
    (remote storage backend, section 6): [upload(localPath)] yields a fresh
    handle or an error. *)
Definition upload (localPath : string) (g : Storage) : Settled DriveFile * Storage :=
  match outage g with
  | Some e => (Rejected e, g)
  | None =>
      match disk g !! localPath with
      | None => (Rejected (StorageFailure "local file missing"), g)
      | Some content =>
          let handle := "file-" +:+ pretty (issued g) in
          (Resolved (mkDriveFile handle),
           mkStorage (<[handle := (basename localPath, content)]> (files g))
                     (disk g) (S (issued g)) None)
      end
  end.

(** Modelled from the spec: [getFileMetadata] of [./googleDriveService]:
    [getMetadata(handle)] yields the display name or an error. *)
Definition metadata (handle : string) (g : Storage) : Settled (option string) * Storage :=
  match outage g with
  | Some e => (Rejected e, g)
  | None =>
      match files g !! handle with
      | None => (Rejected (StorageFailure "remote file missing"), g)
      | Some (displayName, _) => (Resolved (Some displayName), g)
      end
  end.

(** Modelled from the spec: [downloadFile] of [./googleDriveService]:
    [download(handle, destinationPath)] copies the content to the path. *)
Definition download (handle destinationPath : string) (g : Storage)
  : Settled unit * Storage :=
  match outage g with
  | Some e => (Rejected e, g)
  | None =>
      match files g !! handle with
      | None => (Rejected (StorageFailure "remote file missing"), g)
      | Some (_, content) =>
          (Resolved tt,
           mkStorage (files g) (<[destinationPath := content]> (disk g)) (issued g) None)
      end
  end.

Definition drive_model : GoogleDriveService Storage :=
  {| uploadFile := upload; getFileMetadata := metadata; downloadFile := download |}.

(** [path.join] on two plain segments of a POSIX path. *)
Definition join (a b : string) : string := a +:+ "/" +:+ b.

(** A test double of the slow hash: enough to tell passcodes apart. *)
Definition toy_kdf (salt passcode : string) : string := salt +:+ "#" +:+ passcode.

(** A [Cli] over these collaborators, on a machine whose home directory is
    [home] and whose local files are those of [local]. *)
Definition cli_model (home : string) (local : gmap string string)
  : Cli Store Storage Entropy :=
  {| googleDriveService := drive_model;
     db := db_model;
     bcrypt := bcrypt_model toy_kdf;
     modules := {| generateSharedKey := generate;
                   existsSync := fun p => bool_decide (is_Some (local !! p));
                   homedir := home;
                   path_join := join |} |}.

End SpecModel.
(** ** A sender and a receiver

    Worlds over the collaborators of [SpecModel], for the end-to-end
    scenarios: the sender's machine holds [report.pdf]; the receiver's world
    has the record and the remote file an upload with the passcode [xyz123]
    left behind. *)

Module Scenario.

Import SpecModel.

Definition local_disk : gmap string string := {[ "report.pdf" := "%PDF-1.7" ]}.

Definition cli : Cli Store Storage Entropy := cli_model "/home/u" local_disk.

Definition network_error : Error := mkError "Error" "network unreachable".

Definition no_records : Store := mkStore ∅ None.
Definition failing_records : Store := mkStore ∅ (Some network_error).

Definition drive_up : Storage := mkStorage ∅ local_disk 0 None.
Definition drive_down : Storage := mkStorage ∅ local_disk 0 (Some network_error).

(** The sender types the path and the passcode; the entropy source will
    hand out the key [K7Q2] and the salt [s1]. *)
Definition sender (st : Store) (g : Storage) (passcode : string)
  : World Store Storage Entropy :=
  mkWorld st g ["K7Q2"; "s1"] ["report.pdf"; passcode].

Definition stored : SecureFile := mkSecureFile "s1$s1#xyz123" "K7Q2" "file-0".

Definition one_record : Store := mkStore {[ "K7Q2" := stored ]} None.

Definition one_file : Storage :=
  mkStorage {[ "file-0" := ("report.pdf", "%PDF-1.7") ]} local_disk 1 None.

(** The receiver types [input] at the prompts. *)
Definition receiver (g : Storage) (input : list string)
  : World Store Storage Entropy :=
  mkWorld one_record g [] input.

End Scenario.


(** * Properties of the flows *)

(** ** Running a flow step by step *)

Section Steps.

Context {W A B : Type}.

Lemma after_mkRun (t t' : list Event) (o : Outcome A) (w : W) :
  after t (mkRun o w t') = mkRun o w (t ++ t').
Proof. reflexivity. Qed.

Lemma bind_returned (m : M W A) (k : A -> M W B) w a w' t :
  m w = mkRun (Returned a) w' t -> bind m k w = after t (k a w').
Proof. unfold bind. intros ->. reflexivity. Qed.

Lemma bind_thrown (m : M W A) (k : A -> M W B) w e w' t :
  m w = mkRun (Thrown e) w' t -> bind m k w = mkRun (Thrown e) w' t.
Proof. unfold bind. intros ->. reflexivity. Qed.

Lemma bind_awaiting (m : M W A) (k : A -> M W B) w w' t :
  m w = mkRun AwaitingInput w' t -> bind m k w = mkRun AwaitingInput w' t.
Proof. unfold bind. intros ->. reflexivity. Qed.

Lemma try_returned (body : M W A) handler w a w' t :
  body w = mkRun (Returned a) w' t ->
  try_catch body handler w = mkRun (Returned a) w' t.
Proof. unfold try_catch. intros ->. reflexivity. Qed.

Lemma try_thrown (body : M W A) handler w e w' t :
  body w = mkRun (Thrown e) w' t ->
  try_catch body handler w = after t (handler e w').
Proof. unfold try_catch. intros ->. reflexivity. Qed.

Lemma try_awaiting (body : M W A) handler w w' t :
  body w = mkRun AwaitingInput w' t ->
  try_catch body handler w = mkRun AwaitingInput w' t.
Proof. unfold try_catch. intros ->. reflexivity. Qed.

End Steps.

Lemma bind_assoc {W A B C} (m : M W A) (k1 : A -> M W B) (k2 : B -> M W C) w :
  bind (bind m k1) k2 w = bind m (fun a => bind (k1 a) k2) w.
Proof.
  unfold bind. destruct (m w) as [[a|e|] w1 t1]; cbn; try reflexivity.
  destruct (k1 a w1) as [[b|e|] w2 t2]; cbn; try reflexivity.
  unfold after; cbn. by rewrite app_assoc.
Qed.

Ltac flow_whnf :=
  cbv beta iota zeta delta
    [settle records remote entropy stdin negb falsy_name falsy narrowed fst snd].

(** A primitive of the flow, run on the equations at hand. *)
Ltac flow_prim :=
  unfold text, askPassword, prompts_invisible, on_records, on_remote, on_entropy,
    s_start, s_stop, note, console_error, emit, ret, throw;
  flow_whnf;
  repeat match goal with
         | H : ?lhs = (_, _) |- context [?lhs] => rewrite H; flow_whnf
         end;
  reflexivity.

Ltac flow_step :=
  first
    [ rewrite after_mkRun
    | rewrite bind_assoc
    | erewrite bind_returned by flow_prim
    | erewrite bind_thrown by flow_prim
    | erewrite bind_awaiting by flow_prim
    | erewrite try_returned by (flow_run; reflexivity)
    | erewrite try_thrown by (flow_run; reflexivity)
    | erewrite try_awaiting by (flow_run; reflexivity) ]
with flow_run := flow_whnf; repeat (flow_step; flow_whnf).

(** Runs the flow of the goal to its end and leaves the run it made. *)
Ltac flow_exec :=
  unfold handleFileUpload, handleFileDownload, getFilePathAndPassCode;
  flow_run;
  unfold s_stop, note, console_error, emit, throw;
  repeat rewrite after_mkRun;
  cbn [outcome world trace app].

(** ** The validated prompt *)

Lemma text_rounds_only_validation validate pending o rest evs :
  text_rounds validate pending = (o, rest, evs) ->
  Forall (fun ev => exists msg, ev = ValidationShown msg) evs.
Proof.
  revert o rest evs.
  induction pending as [|value pending IH]; simpl; intros o rest evs Heq.
  - inversion Heq; constructor.
  - destruct (validate value) as [msg|].
    + destruct (text_rounds validate pending) as [[o' rest'] evs'].
      inversion Heq; subst. constructor; [eauto | eapply IH; eauto].
    + inversion Heq; constructor.
Qed.

Lemma text_rounds_screen validate pending o rest evs :
  text_rounds validate pending = (o, rest, evs) -> screen evs = evs.
Proof.
  intros H. apply text_rounds_only_validation in H.
  induction H as [|ev evs [msg ->] _ IH]; [reflexivity|].
  unfold screen in *. simpl. by rewrite IH.
Qed.

Lemma text_rounds_silent validate pending o rest evs ev :
  text_rounds validate pending = (o, rest, evs) ->
  (forall msg, ev <> ValidationShown msg) -> ev ∉ evs.
Proof.
  intros H Hev Hin. apply text_rounds_only_validation in H.
  rewrite Forall_forall in H. destruct (H _ Hin) as [msg Hmsg].
  by apply (Hev msg).
Qed.

(** The value a prompt returns passed its validator. *)
Lemma text_rounds_returned validate pending value rest evs :
  text_rounds validate pending = (Returned value, rest, evs) ->
  validate value = None.
Proof.
  revert rest evs.
  induction pending as [|v pending IH]; simpl; intros rest evs Heq; [discriminate|].
  destruct (validate v) as [msg|] eqn:Hv.
  - destruct (text_rounds validate pending) as [[o' rest'] evs'].
    inversion Heq; subst. eapply IH; eauto.
  - by inversion Heq; subst.
Qed.

(** A prompt never throws. *)
Lemma text_rounds_not_thrown validate pending e rest evs :
  text_rounds validate pending <> (Thrown e, rest, evs).
Proof.
  revert rest evs.
  induction pending as [|v pending IH]; simpl; intros rest evs Heq; [discriminate|].
  destruct (validate v) as [msg|].
  - destruct (text_rounds validate pending) as [[o' rest'] evs'] eqn:Hrec.
    inversion Heq; subst. by eapply IH.
  - discriminate.
Qed.

Lemma screen_app (t1 t2 : list Event) : screen (t1 ++ t2) = screen t1 ++ screen t2.
Proof. apply List.filter_app. Qed.

Lemma screen_prompted validate pending o rest evs ev tl :
  text_rounds validate pending = (o, rest, evs) ->
  screen (ev :: evs ++ tl) = screen [ev] ++ evs ++ screen tl.
Proof.
  intros H. change (ev :: evs ++ tl) with ([ev] ++ evs ++ tl).
  rewrite !screen_app. by rewrite (text_rounds_screen _ _ _ _ _ H).
Qed.

Lemma download_prompts_eq evs tl :
  download_prompts evs ++ tl
  = PromptShown "Enter the shared key:" :: evs ++
    [PromptShown "Enter your passcode to get download link";
     SpinnerStart "Varifying passcode..."] ++ tl.
Proof. unfold download_prompts. cbn [app]. by rewrite <- app_assoc. Qed.

Lemma failed_download_screen_eq evs err :
  failed_download_screen evs err
  = PromptShown "Enter the shared key:" :: evs ++
    [PromptShown "Enter your passcode to get download link";
     SpinnerStart "Varifying passcode...";
     SpinnerStop "Success!"; SpinnerStart "Downloading...";
     ConsoleError "Error downloading file:" err;
     NoteShown "Failed to download file" "error"].
Proof. unfold failed_download_screen. by rewrite download_prompts_eq. Qed.

Lemma upload_preamble_eq evs key tl :
  upload_preamble evs key ++ tl
  = PromptShown "Please enter the file path:" :: evs ++
    [PromptShown "Set a passcode";
     SpinnerStart "Generating a shared key...";
     SpinnerStop ("Shared key: " +:+ key);
     SpinnerStart "Processing file..."] ++ tl.
Proof. unfold upload_preamble. cbn [app]. by rewrite <- app_assoc. Qed.

Lemma failed_upload_screen_eq evs key err :
  failed_upload_screen evs key err
  = PromptShown "Please enter the file path:" :: evs ++
    [PromptShown "Set a passcode";
     SpinnerStart "Generating a shared key...";
     SpinnerStop ("Shared key: " +:+ key);
     SpinnerStart "Processing file...";
     SpinnerStop "File upload failed!";
     ConsoleError "Error uploading file:" err].
Proof. unfold failed_upload_screen. by rewrite upload_preamble_eq. Qed.

(** Decides [ev ∉ t] for a trace [t] written out around a prompt's rounds. *)
Ltac absent :=
  let Hin := fresh "Hin" in
  intros Hin;
  repeat first
    [ apply elem_of_nil in Hin; contradiction
    | by (eapply text_rounds_silent in Hin; [ | eassumption | discriminate ])
    | apply elem_of_cons in Hin as [Hin|Hin]; [discriminate Hin|]
    | apply elem_of_app in Hin as [Hin|Hin];
      [ by (eapply text_rounds_silent in Hin; [ | eassumption | discriminate ]) | ] ].

(** Splits [Invoked c ∈ t], for a trace [t] written out around a prompt's
    rounds, into one goal per call of [t]. *)
Ltac calls_of Hin :=
  repeat first
    [ apply elem_of_nil in Hin; contradiction
    | by (eapply text_rounds_silent in Hin; [ | eassumption | discriminate ])
    | apply elem_of_cons in Hin as [Hin|Hin];
      [ first [ discriminate Hin | injection Hin as -> ] | ]
    | apply elem_of_app in Hin as [Hin|Hin];
      [ by (eapply text_rounds_silent in Hin; [ | eassumption | discriminate ]) | ] ].

Section FlowFacts.

Context {D G E : Type}.
Variable this : Cli D G E.

(** The download flow when the lookup finds no record. *)
Lemma download_miss_run (w : World D G E) key passcode rest evs d :
  text_rounds validate_sharedKey (stdin w) = (Returned key, passcode :: rest, evs) ->
  getSecureFile (db this) key (records w) = (Resolved None, d) ->
  handleFileDownload this w =
  mkRun (Returned tt) (mkWorld d (remote w) (entropy w) rest)
    (PromptShown "Enter the shared key:" :: evs ++
     [PromptShown "Enter your passcode to get download link";
      SpinnerStart "Varifying passcode...";
      Invoked (GetSecureFile key);
      SpinnerStop "Wrong shared key!"]).
Proof.
  intros Ht Hget.
  destruct w as [d0 g0 e0 input]; cbn [stdin records entropy remote] in *.
  flow_exec. reflexivity.
Qed.

(** The download flow when the passcode check resolves to [false]. *)
Lemma download_mismatch_run (w : World D G E) key passcode rest evs d file e' :
  text_rounds validate_sharedKey (stdin w) = (Returned key, passcode :: rest, evs) ->
  getSecureFile (db this) key (records w) = (Resolved (Some file), d) ->
  comparePasscode (bcrypt this) passcode (hashedPassCode file) (entropy w)
    = (Resolved false, e') ->
  handleFileDownload this w =
  mkRun (Returned tt) (mkWorld d (remote w) e' rest)
    (PromptShown "Enter the shared key:" :: evs ++
     [PromptShown "Enter your passcode to get download link";
      SpinnerStart "Varifying passcode...";
      Invoked (GetSecureFile key);
      Invoked (ComparePasscode passcode (hashedPassCode file));
      SpinnerStop "Wrong passcode!"]).
Proof.
  intros Ht Hget Hcmp.
  destruct w as [d0 g0 e0 input]; cbn [stdin records entropy remote] in *.
  flow_exec. reflexivity.
Qed.

(** C9. A lookup that finds no record ends the download flow at once: the
    flow returns after the message of the miss, and [comparePasscode] is not
    called in that run. *)
Theorem download_miss_skips_compare (w : World D G E) key passcode rest evs d :
  text_rounds validate_sharedKey (stdin w) = (Returned key, passcode :: rest, evs) ->
  getSecureFile (db this) key (records w) = (Resolved None, d) ->
  let r := handleFileDownload this w in
  outcome r = Returned tt /\
  trace r = PromptShown "Enter the shared key:" :: evs ++
            [PromptShown "Enter your passcode to get download link";
             SpinnerStart "Varifying passcode...";
             Invoked (GetSecureFile key);
             SpinnerStop "Wrong shared key!"] /\
  forall p h, Invoked (ComparePasscode p h) ∉ trace r.
Proof.
  intros Ht Hget. cbv zeta. rewrite (download_miss_run _ _ _ _ _ _ Ht Hget).
  cbn [outcome trace]. split; [reflexivity|]. split; [reflexivity|].
  intros p h. absent.
Qed.

(** C1, as the code has it. A lookup miss and a failed passcode check both
    end the download flow normally and before any call to the storage
    backend, but each has a message of its own on the screen, ["Wrong shared
    key!"] and ["Wrong passcode!"]: the two screens are never equal. *)
Theorem credential_failures_named_apart
    (w1 w2 : World D G E) key1 pass1 rest1 evs1 d1 key2 pass2 rest2 evs2 d2 file e2 :
  text_rounds validate_sharedKey (stdin w1) = (Returned key1, pass1 :: rest1, evs1) ->
  getSecureFile (db this) key1 (records w1) = (Resolved None, d1) ->
  text_rounds validate_sharedKey (stdin w2) = (Returned key2, pass2 :: rest2, evs2) ->
  getSecureFile (db this) key2 (records w2) = (Resolved (Some file), d2) ->
  comparePasscode (bcrypt this) pass2 (hashedPassCode file) (entropy w2)
    = (Resolved false, e2) ->
  let miss := handleFileDownload this w1 in
  let mismatch := handleFileDownload this w2 in
  outcome miss = Returned tt /\
  outcome mismatch = Returned tt /\
  screen (trace miss) = download_prompts evs1 ++ [SpinnerStop "Wrong shared key!"] /\
  screen (trace mismatch) = download_prompts evs2 ++ [SpinnerStop "Wrong passcode!"] /\
  screen (trace miss) <> screen (trace mismatch) /\
  (forall c, Invoked c ∈ trace miss ++ trace mismatch -> touches_storage c = false).
Proof.
  intros Ht1 Hget1 Ht2 Hget2 Hcmp. cbv zeta.
  rewrite (download_miss_run _ _ _ _ _ _ Ht1 Hget1).
  rewrite (download_mismatch_run _ _ _ _ _ _ _ _ Ht2 Hget2 Hcmp).
  cbn [outcome trace].
  rewrite (screen_prompted _ _ _ _ _ _ _ Ht1), (screen_prompted _ _ _ _ _ _ _ Ht2).
  rewrite !download_prompts_eq. cbn [screen List.filter visible].
  repeat split; try reflexivity.
  - intros Heq. apply app_inj_1 in Heq as [_ Heq]; [|reflexivity].
    apply app_inj_2 in Heq as [_ Heq]; [discriminate Heq | reflexivity].
  - intros c Hin. apply elem_of_app in Hin as [Hin|Hin].
    + destruct c; try reflexivity; exfalso; revert Hin; absent.
    + destruct c; try reflexivity; exfalso; revert Hin; absent.
Qed.

(** C7. Once the lookup found a record and the passcode check passed, a
    failure of the storage stage is caught and shown as ["Failed to download
    file"] after ["Success!"]; neither message of a failed credential check
    is on the screen of such a run. *)
Theorem storage_failure_not_credential_failure
    (w : World D G E) key passcode rest evs d file e' err g' :
  text_rounds validate_sharedKey (stdin w) = (Returned key, passcode :: rest, evs) ->
  getSecureFile (db this) key (records w) = (Resolved (Some file), d) ->
  comparePasscode (bcrypt this) passcode (hashedPassCode file) (entropy w)
    = (Resolved true, e') ->
  storage_stage_fails this (remote w) (fileId file) err g' ->
  let r := handleFileDownload this w in
  outcome r = Returned tt /\
  remote (world r) = g' /\
  screen (trace r) = failed_download_screen evs err /\
  ~ credential_failure_shown (screen (trace r)).
Proof.
  intros Ht Hget Hcmp Hfail.
  destruct w as [d0 g0 e0 input]; cbn [stdin records entropy remote] in *.
  cbv zeta.
  assert (Hscr : forall l,
    screen (PromptShown "Enter the shared key:" :: evs ++ l)
    = PromptShown "Enter the shared key:" :: evs ++ screen l).
  { intros l. by rewrite (screen_prompted _ _ _ _ _ _ _ Ht). }
  assert (Hno : ~ credential_failure_shown (failed_download_screen evs err)).
  { rewrite failed_download_screen_eq. intros [H|H]; revert H; absent. }
  assert (Hrun : exists w' t,
    handleFileDownload this (mkWorld d0 g0 e0 input) = mkRun (Returned tt) w' t /\
    remote w' = g' /\ screen t = failed_download_screen evs err).
  { rewrite failed_download_screen_eq.
    destruct Hfail as [err g' Hmeta | fileName g' Hmeta Hfalsy
                      | fileName g' err g'' Hmeta Hname Hdl].
    - do 2 eexists. split; [flow_exec; reflexivity|].
      split; [reflexivity | by rewrite Hscr].
    - destruct fileName as [[|c s]|]; try discriminate Hfalsy.
      + do 2 eexists. split; [flow_exec; reflexivity|].
        split; [reflexivity | by rewrite Hscr].
      + do 2 eexists. split; [flow_exec; reflexivity|].
        split; [reflexivity | by rewrite Hscr].
    - destruct fileName as [|c s]; try discriminate Hname.
      do 2 eexists. split; [flow_exec; reflexivity|].
      split; [reflexivity | by rewrite Hscr]. }
  destruct Hrun as (w' & t & -> & Hw' & Ht').
  cbn [outcome world trace]. rewrite Ht'. auto.
Qed.

(** What the download flow can call, whatever the world and the input: a
    lookup only of a key that passed the prompt's validator, a comparison
    only against the digest of a record the lookup found for the key typed,
    and a download only to a path under the [Downloads] folder of the home
    directory. *)
Lemma download_calls (w : World D G E) c :
  Invoked c ∈ trace (handleFileDownload this w) ->
  match c with
  | GetSecureFile key => validate_sharedKey key = None
  | ComparePasscode _ hashed =>
      exists key file d,
        validate_sharedKey key = None /\
        getSecureFile (db this) key (records w) = (Resolved (Some file), d) /\
        hashed = hashedPassCode file
  | DownloadFile _ destinationPath =>
      exists fileName,
        destinationPath =
        path_join (modules this)
          (path_join (modules this) (homedir (modules this)) "Downloads") fileName
  | GetFileMetadata _ => True
  | _ => False
  end.
Proof.
  destruct w as [d0 g0 e0 input]; cbn [records].
  destruct (text_rounds validate_sharedKey input) as [[o rest] evs] eqn:Ht.
  destruct o as [key|e|]; cycle 1.
  { by apply text_rounds_not_thrown in Ht. }
  { flow_exec. intros Hin. calls_of Hin. }
  pose proof (text_rounds_returned _ _ _ _ _ Ht) as Hkey.
  destruct rest as [|passcode rest].
  { flow_exec. intros Hin. calls_of Hin. }
  destruct (getSecureFile (db this) key d0) as [[[file|]|err] d1] eqn:Hget; cycle 1.
  { flow_exec. intros Hin. calls_of Hin. done. }
  { flow_exec. intros Hin. calls_of Hin. done. }
  destruct (comparePasscode (bcrypt this) passcode (hashedPassCode file) e0)
    as [[[|]|err] e1] eqn:Hcmp; cycle 1.
  { flow_exec. intros Hin. calls_of Hin; [done | by eauto 6]. }
  { flow_exec. intros Hin. calls_of Hin; [done | by eauto 6]. }
  destruct (getFileMetadata (googleDriveService this) (fileId file) g0)
    as [[fileName|err] g1] eqn:Hmeta; cycle 1.
  { flow_exec. intros Hin. calls_of Hin; [done | by eauto 6 | done]. }
  destruct fileName as [[|ch s]|].
  { flow_exec. intros Hin. calls_of Hin; [done | by eauto 6 | done]. }
  2: { flow_exec. intros Hin. calls_of Hin; [done | by eauto 6 | done]. }
  destruct (downloadFile (googleDriveService this) (fileId file)
              (path_join (modules this)
                 (path_join (modules this) (homedir (modules this)) "Downloads")
                 (String ch s)) g1) as [[[]|err] g2] eqn:Hdl.
  { flow_exec. intros Hin. calls_of Hin; [done | by eauto 6 | done | by eauto]. }
  { flow_exec. intros Hin. calls_of Hin; [done | by eauto 6 | done | by eauto]. }
Qed.

(** C4, as the code has it. After the lookup and the passcode check
    succeeded and the metadata call gave a name, the content is downloaded to
    [path.join(path.join(os.homedir(), 'Downloads'), fileName)]: the
    destination is computed from the home directory and the name of the
    remote file, the flow asks the caller for no destination, and it calls
    [downloadFile] with no other path. *)
Theorem download_destination_is_computed
    (w : World D G E) key passcode rest evs d file e' fileName g' s g'' :
  text_rounds validate_sharedKey (stdin w) = (Returned key, passcode :: rest, evs) ->
  getSecureFile (db this) key (records w) = (Resolved (Some file), d) ->
  comparePasscode (bcrypt this) passcode (hashedPassCode file) (entropy w)
    = (Resolved true, e') ->
  getFileMetadata (googleDriveService this) (fileId file) (remote w)
    = (Resolved (Some fileName), g') ->
  falsy fileName = false ->
  let destinationPath :=
    path_join (modules this)
      (path_join (modules this) (homedir (modules this)) "Downloads") fileName in
  downloadFile (googleDriveService this) (fileId file) destinationPath g' = (s, g'') ->
  let r := handleFileDownload this w in
  Invoked (DownloadFile (fileId file) destinationPath) ∈ trace r /\
  (forall f dest, Invoked (DownloadFile f dest) ∈ trace r ->
                  f = fileId file /\ dest = destinationPath) /\
  (s = Resolved tt ->
   outcome r = Returned tt /\
   screen (trace r) = download_prompts evs ++
     [SpinnerStop "Success!"; SpinnerStart "Downloading...";
      SpinnerStop ("File downloaded to: " +:+ destinationPath)]).
Proof.
  intros Ht Hget Hcmp Hmeta Hname dest Hdl.
  destruct w as [d0 g0 e0 input]; cbn [stdin records entropy remote] in *.
  subst dest. cbv zeta.
  destruct fileName as [|ch nm]; [discriminate Hname|].
  rewrite download_prompts_eq.
  destruct s as [[]|err].
  - flow_exec. split; [|split].
    + apply elem_of_cons; right. apply elem_of_app; right.
      do 7 (apply elem_of_cons; right). by apply elem_of_cons; left.
    + intros f dest Hin. calls_of Hin. done.
    + intros _. split; [reflexivity|].
      by rewrite (screen_prompted _ _ _ _ _ _ _ Ht).
  - flow_exec. split; [|split].
    + apply elem_of_cons; right. apply elem_of_app; right.
      do 7 (apply elem_of_cons; right). by apply elem_of_cons; left.
    + intros f dest Hin. calls_of Hin. done.
    + discriminate.
Qed.

(** C10. The two prompts of the download flow are validated unevenly. The
    shared key reaches the lookup only when it is not empty, whatever is
    typed; the passcode prompt has no validator, so an empty passcode typed
    after a key the lookup finds is handed to [comparePasscode]. *)
Theorem download_validates_key_not_passcode (w : World D G E) :
  let r := handleFileDownload this w in
  (forall key, Invoked (GetSecureFile key) ∈ trace r -> key <> "") /\
  (forall key rest evs file d,
     text_rounds validate_sharedKey (stdin w) = (Returned key, "" :: rest, evs) ->
     getSecureFile (db this) key (records w) = (Resolved (Some file), d) ->
     Invoked (ComparePasscode "" (hashedPassCode file)) ∈ trace r /\
     forall msg, ValidationShown msg ∈ trace r -> ValidationShown msg ∈ evs).
Proof.
  cbv zeta. split.
  - intros key Hin. apply download_calls in Hin. cbn in Hin.
    intros ->. discriminate Hin.
  - intros key rest evs file d Ht Hget.
    destruct w as [d0 g0 e0 input]; cbn [stdin records] in *.
    assert (Hpre : exists w' o tl,
      handleFileDownload this (mkWorld d0 g0 e0 input) =
      mkRun o w' (PromptShown "Enter the shared key:" :: evs ++
        [PromptShown "Enter your passcode to get download link";
         SpinnerStart "Varifying passcode...";
         Invoked (GetSecureFile key);
         Invoked (ComparePasscode "" (hashedPassCode file))] ++ tl) /\
      forall msg, ValidationShown msg ∉ tl).
    { destruct (comparePasscode (bcrypt this) "" (hashedPassCode file) e0)
        as [[[|]|err] e1] eqn:Hcmp.
      - destruct (getFileMetadata (googleDriveService this) (fileId file) g0)
          as [[fileName|err] g1] eqn:Hmeta.
        + destruct fileName as [[|ch s]|].
          * do 3 eexists. split; [flow_exec; reflexivity | intros msg; absent].
          * destruct (downloadFile (googleDriveService this) (fileId file)
              (path_join (modules this)
                 (path_join (modules this) (homedir (modules this)) "Downloads")
                 (String ch s)) g1) as [[[]|err] g2] eqn:Hdl.
            -- do 3 eexists. split; [flow_exec; reflexivity | intros msg; absent].
            -- do 3 eexists. split; [flow_exec; reflexivity | intros msg; absent].
          * do 3 eexists. split; [flow_exec; reflexivity | intros msg; absent].
        + do 3 eexists. split; [flow_exec; reflexivity | intros msg; absent].
      - do 3 eexists. split; [flow_exec; reflexivity | intros msg; absent].
      - do 3 eexists. split; [flow_exec; reflexivity | intros msg; absent]. }
    destruct Hpre as (w' & o & tl & -> & Htl). cbn [trace]. split.
    + apply elem_of_cons; right. apply elem_of_app; right.
      do 3 (apply elem_of_cons; right). by apply elem_of_cons; left.
    + intros msg Hin.
      apply elem_of_cons in Hin as [Hin|Hin]; [discriminate Hin|].
      apply elem_of_app in Hin as [Hin|Hin]; [done|].
      do 4 (apply elem_of_cons in Hin as [Hin|Hin]; [discriminate Hin|]).
      by apply Htl in Hin.
Qed.

(** The upload flow when the remote upload rejects: the [catch] block runs,
    the record store is not called. *)
Lemma upload_rejected_run
    (w : World D G E) filePath passcode rest evs key e1 hashed e2 err g' :
  text_rounds (validate_filePath this) (stdin w)
    = (Returned filePath, passcode :: rest, evs) ->
  generateSharedKey (modules this) (entropy w) = (Resolved key, e1) ->
  hashPasscode (bcrypt this) passcode e1 = (Resolved hashed, e2) ->
  uploadFile (googleDriveService this) filePath (remote w) = (Rejected err, g') ->
  handleFileUpload this w =
  mkRun (Returned tt) (mkWorld (records w) g' e2 rest)
    (PromptShown "Please enter the file path:" :: evs ++
     [PromptShown "Set a passcode";
      SpinnerStart "Generating a shared key...";
      Invoked GenerateSharedKey;
      SpinnerStop ("Shared key: " +:+ key);
      Invoked (HashPasscode passcode);
      SpinnerStart "Processing file...";
      Invoked (UploadFile filePath);
      SpinnerStop "File upload failed!";
      ConsoleError "Error uploading file:" err]).
Proof.
  intros Ht Hgen Hhash Hup.
  destruct w as [d0 g0 e0 input]; cbn [stdin records entropy remote] in *.
  flow_exec. reflexivity.
Qed.

(** C2. When the remote upload rejects after the key was generated and the
    passcode hashed, the flow ends in its [catch] block: [createSecureFile]
    is not called, the record store is left as it was, and a lookup of the
    generated key, which found nothing before, finds nothing after. *)
Theorem failed_upload_persists_nothing
    (w : World D G E) filePath passcode rest evs key e1 hashed e2 err g' :
  text_rounds (validate_filePath this) (stdin w)
    = (Returned filePath, passcode :: rest, evs) ->
  generateSharedKey (modules this) (entropy w) = (Resolved key, e1) ->
  hashPasscode (bcrypt this) passcode e1 = (Resolved hashed, e2) ->
  uploadFile (googleDriveService this) filePath (remote w) = (Rejected err, g') ->
  fst (getSecureFile (db this) key (records w)) = Resolved None ->
  let r := handleFileUpload this w in
  outcome r = Returned tt /\
  (forall h k f, Invoked (CreateSecureFile h k f) ∉ trace r) /\
  records (world r) = records w /\
  fst (getSecureFile (db this) key (records (world r))) = Resolved None /\
  screen (trace r) = failed_upload_screen evs key err.
Proof.
  intros Ht Hgen Hhash Hup Hfresh. cbv zeta.
  rewrite (upload_rejected_run _ _ _ _ _ _ _ _ _ _ _ Ht Hgen Hhash Hup).
  cbn [outcome world trace records].
  split; [reflexivity|]. split; [intros h k f; absent|].
  split; [reflexivity|]. split; [exact Hfresh|].
  rewrite failed_upload_screen_eq.
  by rewrite (screen_prompted _ _ _ _ _ _ _ Ht).
Qed.

(** C3, as the code has it. When the remote upload resolves and the record
    write rejects, the error lands in the same [catch] block as a rejected
    upload: the screen is the one of a failed upload with the error caught,
    the uploaded file stays in the storage backend, and no message tells the
    caller so. A run whose remote upload rejects with the same error, after
    the same prompts and the same key, has the same screen. *)
Theorem record_write_failure_shown_as_upload_failure
    (w : World D G E) filePath passcode rest evs key e1 hashed e2 file g' err d' :
  text_rounds (validate_filePath this) (stdin w)
    = (Returned filePath, passcode :: rest, evs) ->
  generateSharedKey (modules this) (entropy w) = (Resolved key, e1) ->
  hashPasscode (bcrypt this) passcode e1 = (Resolved hashed, e2) ->
  uploadFile (googleDriveService this) filePath (remote w) = (Resolved file, g') ->
  createSecureFile (db this) hashed key (id file) (records w) = (Rejected err, d') ->
  let r := handleFileUpload this w in
  outcome r = Returned tt /\
  remote (world r) = g' /\
  records (world r) = d' /\
  screen (trace r) = failed_upload_screen evs key err /\
  (forall (w0 : World D G E) filePath0 passcode0 rest0 e10 hashed0 e20 g0,
     text_rounds (validate_filePath this) (stdin w0)
       = (Returned filePath0, passcode0 :: rest0, evs) ->
     generateSharedKey (modules this) (entropy w0) = (Resolved key, e10) ->
     hashPasscode (bcrypt this) passcode0 e10 = (Resolved hashed0, e20) ->
     uploadFile (googleDriveService this) filePath0 (remote w0) = (Rejected err, g0) ->
     screen (trace (handleFileUpload this w0)) = screen (trace r)).
Proof.
  intros Ht Hgen Hhash Hup Hput. cbv zeta.
  assert (Hrun : handleFileUpload this w =
    mkRun (Returned tt) (mkWorld d' g' e2 rest)
      (PromptShown "Please enter the file path:" :: evs ++
       [PromptShown "Set a passcode";
        SpinnerStart "Generating a shared key...";
        Invoked GenerateSharedKey;
        SpinnerStop ("Shared key: " +:+ key);
        Invoked (HashPasscode passcode);
        SpinnerStart "Processing file...";
        Invoked (UploadFile filePath);
        Invoked (CreateSecureFile hashed key (id file));
        SpinnerStop "File upload failed!";
        ConsoleError "Error uploading file:" err])).
  { destruct w as [d0 g0 e0 input]; cbn [stdin records entropy remote] in *.
    flow_exec. reflexivity. }
  rewrite Hrun. cbn [outcome world trace records remote].
  assert (Hscr : screen (PromptShown "Please enter the file path:" :: evs ++
       [PromptShown "Set a passcode";
        SpinnerStart "Generating a shared key...";
        Invoked GenerateSharedKey;
        SpinnerStop ("Shared key: " +:+ key);
        Invoked (HashPasscode passcode);
        SpinnerStart "Processing file...";
        Invoked (UploadFile filePath);
        Invoked (CreateSecureFile hashed key (id file));
        SpinnerStop "File upload failed!";
        ConsoleError "Error uploading file:" err]) = failed_upload_screen evs key err).
  { rewrite failed_upload_screen_eq. by rewrite (screen_prompted _ _ _ _ _ _ _ Ht). }
  rewrite Hscr. repeat split; try reflexivity.
  intros w0 filePath0 passcode0 rest0 e10 hashed0 e20 g0 Ht0 Hgen0 Hhash0 Hup0.
  rewrite (upload_rejected_run _ _ _ _ _ _ _ _ _ _ _ Ht0 Hgen0 Hhash0 Hup0).
  cbn [trace]. rewrite failed_upload_screen_eq.
  by rewrite (screen_prompted _ _ _ _ _ _ _ Ht0).
Qed.

Lemma elem_of_screen (ev : Event) (t : list Event) :
  visible ev = true -> ev ∈ t -> ev ∈ screen t.
Proof.
  intros Hv Hin. apply list_elem_of_In. apply List.filter_In.
  split; [by apply list_elem_of_In | exact Hv].
Qed.

(** C8. In every run of the upload flow that reaches the call of
    [uploadFile], the shared key was generated and shown on the terminal
    before that call, whether the upload then resolves or rejects. *)
Theorem key_shown_before_upload (w : World D G E) filePath :
  let r := handleFileUpload this w in
  Invoked (UploadFile filePath) ∈ trace r ->
  exists key e1 pre post,
    generateSharedKey (modules this) (entropy w) = (Resolved key, e1) /\
    trace r = pre ++ SpinnerStop ("Shared key: " +:+ key) :: post /\
    Invoked GenerateSharedKey ∈ pre /\
    (forall p, Invoked (UploadFile p) ∉ pre) /\
    Invoked (UploadFile filePath) ∈ post /\
    SpinnerStop ("Shared key: " +:+ key) ∈ screen (trace r).
Proof.
  cbv zeta. destruct w as [d0 g0 e0 input]; cbn [entropy].
  destruct (text_rounds (validate_filePath this) input) as [[o rest] evs] eqn:Ht.
  destruct o as [path|e|]; cycle 1.
  { by apply text_rounds_not_thrown in Ht. }
  { flow_exec. intros Hin. calls_of Hin. }
  destruct rest as [|passcode rest].
  { flow_exec. intros Hin. calls_of Hin. }
  destruct (generateSharedKey (modules this) e0) as [[key|err] e1] eqn:Hgen; cycle 1.
  { flow_exec. intros Hin. calls_of Hin. }
  destruct (hashPasscode (bcrypt this) passcode e1) as [[hashed|err] e2] eqn:Hhash;
    cycle 1.
  { flow_exec. intros Hin. calls_of Hin. }
  assert (Hshape : exists o w' tl,
    handleFileUpload this (mkWorld d0 g0 e0 input) =
    mkRun o w'
      ((PromptShown "Please enter the file path:" :: evs ++
        [PromptShown "Set a passcode";
         SpinnerStart "Generating a shared key...";
         Invoked GenerateSharedKey]) ++
       SpinnerStop ("Shared key: " +:+ key) ::
       [Invoked (HashPasscode passcode); SpinnerStart "Processing file...";
        Invoked (UploadFile path)] ++ tl) /\
    forall p, Invoked (UploadFile p) ∉ tl).
  { destruct (uploadFile (googleDriveService this) path g0) as [[file|err] g1] eqn:Hup.
    - destruct (createSecureFile (db this) hashed key (id file) d0)
        as [[row|err] d1] eqn:Hput.
      + do 3 eexists.
        split; [cbn [app]; rewrite <- app_assoc; cbn [app]; flow_exec; reflexivity
               | intros p; absent].
      + do 3 eexists.
        split; [cbn [app]; rewrite <- app_assoc; cbn [app]; flow_exec; reflexivity
               | intros p; absent].
    - do 3 eexists.
        split; [cbn [app]; rewrite <- app_assoc; cbn [app]; flow_exec; reflexivity
               | intros p; absent]. }
  destruct Hshape as (o & w' & tl & -> & Htl). cbn [trace]. intros Hin.
  exists key, e1. do 2 eexists. split; [reflexivity|]. split; [reflexivity|].
  split; [|split; [|split]].
  - apply elem_of_cons; right. apply elem_of_app; right.
    do 2 (apply elem_of_cons; right). by apply elem_of_cons; left.
  - intros p. absent.
  - apply elem_of_app in Hin as [Hin|Hin]; [exfalso; revert Hin; absent|].
    apply elem_of_cons in Hin as [Hin|Hin]; [discriminate Hin|].
    apply elem_of_cons in Hin as [Hin|Hin]; [discriminate Hin|].
    apply elem_of_cons in Hin as [Hin|Hin]; [discriminate Hin|].
    apply elem_of_cons in Hin as [Hin|Hin].
    + injection Hin as ->. do 2 (apply elem_of_cons; right). by apply elem_of_cons; left.
    + by apply Htl in Hin.
  - apply elem_of_screen; [reflexivity|].
    apply elem_of_app; right. by apply elem_of_cons; left.
Qed.

End FlowFacts.

(** ** The hasher of the specification in the flows *)

Section HasherFacts.

Import SpecModel.

Variable kdf : string -> string -> string.

(** C5. The hasher of the specification rejects a passcode with
    [InvalidInput] exactly when the passcode is empty. The upload flow hands
    the passcode of the prompt to the hasher unchecked, so with an empty
    passcode the flow throws [InvalidInput] at the hash step: no digest is
    made, nothing is uploaded and nothing is recorded. *)
Theorem empty_passcode_rejected_by_hash :
  (forall passcode e,
     (exists e', hash kdf passcode e = (Rejected InvalidInput, e')) <-> passcode = "") /\
  (forall {D G} (this : Cli D G Entropy) (w : World D G Entropy)
          filePath rest evs key e1,
     hashPasscode (bcrypt this) = hash kdf ->
     text_rounds (validate_filePath this) (stdin w)
       = (Returned filePath, "" :: rest, evs) ->
     generateSharedKey (modules this) (entropy w) = (Resolved key, e1) ->
     let r := handleFileUpload this w in
     outcome r = Thrown InvalidInput /\
     records (world r) = records w /\
     remote (world r) = remote w /\
     forall c, Invoked c ∈ trace r -> c = GenerateSharedKey \/ c = HashPasscode "").
Proof.
  split.
  - intros passcode e. unfold hash. split.
    + intros [e' Heq]. destruct passcode as [|c s]; [reflexivity|].
      cbn in Heq. destruct e; discriminate Heq.
    + intros ->. by exists e.
  - intros D G this w filePath rest evs key e1 Hbcrypt Ht Hgen. cbv zeta.
    assert (Hhash : hashPasscode (bcrypt this) "" e1 = (Rejected InvalidInput, e1))
      by (by rewrite Hbcrypt).
    destruct w as [d0 g0 e0 input]; cbn [stdin records entropy remote] in *.
    flow_exec. repeat split.
    intros c Hin. calls_of Hin; auto.
Qed.

(** C6. The verifier of the specification never rejects a well-formed
    digest: it resolves to a boolean, [false] when the passcode does not
    produce the stored digest. The download flow takes that [false] as an
    ordinary result: it shows its message and returns, nothing is thrown. *)
Theorem mismatch_is_false_not_error :
  (forall passcode hashed e,
     well_formed hashed -> exists b, verify kdf passcode hashed e = (Resolved b, e)) /\
  (forall passcode hashed e salt body,
     split_digest hashed = Some (salt, body) ->
     kdf salt passcode <> body ->
     verify kdf passcode hashed e = (Resolved false, e)) /\
  (forall {D G} (this : Cli D G Entropy) (w : World D G Entropy)
          key passcode rest evs file d salt body,
     comparePasscode (bcrypt this) = verify kdf ->
     text_rounds validate_sharedKey (stdin w) = (Returned key, passcode :: rest, evs) ->
     getSecureFile (db this) key (records w) = (Resolved (Some file), d) ->
     split_digest (hashedPassCode file) = Some (salt, body) ->
     kdf salt passcode <> body ->
     let r := handleFileDownload this w in
     outcome r = Returned tt /\
     screen (trace r) = download_prompts evs ++ [SpinnerStop "Wrong passcode!"]).
Proof.
  assert (Hfalse : forall passcode hashed (e : Entropy) salt body,
     split_digest hashed = Some (salt, body) ->
     kdf salt passcode <> body ->
     verify kdf passcode hashed e = (Resolved false, e)).
  { intros passcode hashed e salt body Hsplit Hne. unfold verify. rewrite Hsplit.
    by apply String.eqb_neq in Hne as ->. }
  split; [|split; [exact Hfalse|]].
  - intros passcode hashed e [[salt body] Hsplit]. unfold verify. rewrite Hsplit.
    by eexists.
  - intros D G this w key passcode rest evs file d salt body Hbcrypt Ht Hget Hsplit Hne.
    cbv zeta.
    assert (Hcmp : comparePasscode (bcrypt this) passcode (hashedPassCode file) (entropy w)
                   = (Resolved false, entropy w))
      by (rewrite Hbcrypt; by eapply Hfalse).
    rewrite (download_mismatch_run _ _ _ _ _ _ _ _ _ Ht Hget Hcmp).
    cbn [outcome trace]. split; [reflexivity|].
    rewrite download_prompts_eq. by rewrite (screen_prompted _ _ _ _ _ _ _ Ht).
Qed.

End HasherFacts.

(** ** The scenarios, run *)

Section ScenarioFacts.

Import SpecModel Scenario.

(** The upload of the scenario leaves the receiver's world. *)
Example upload_then_receiver :
  let r := handleFileUpload cli (sender no_records drive_up "xyz123") in
  outcome r = Returned tt /\
  rows (records (world r)) !! "K7Q2" = Some stored /\
  files (remote (world r)) = files one_file.
Proof. vm_compute. repeat split. Qed.

(** End to end: the receiver who types the key and the passcode gets the
    sender's bytes under the [Downloads] folder. *)
Example receiver_gets_the_file :
  let r := handleFileDownload cli (receiver one_file ["K7Q2"; "xyz123"]) in
  outcome r = Returned tt /\
  disk (remote (world r)) !! "/home/u/Downloads/report.pdf" = Some "%PDF-1.7".
Proof. vm_compute. repeat split. Qed.

Lemma download_miss_skips_compare_witness :
  let r := handleFileDownload cli (receiver one_file ["WRONGKEY"; "xyz123"]) in
  outcome r = Returned tt /\
  trace r = PromptShown "Enter the shared key:" :: [] ++
            [PromptShown "Enter your passcode to get download link";
             SpinnerStart "Varifying passcode...";
             Invoked (GetSecureFile "WRONGKEY");
             SpinnerStop "Wrong shared key!"] /\
  forall p h, Invoked (ComparePasscode p h) ∉ trace r.
Proof.
  apply (download_miss_skips_compare cli (receiver one_file ["WRONGKEY"; "xyz123"])
           "WRONGKEY" "xyz123" [] [] one_record); reflexivity.
Defined.

(** C1, refuted as stated: with the record of [K7Q2] in the store, an unknown
    key and a wrong passcode leave different screens. *)
Lemma credential_failures_told_apart :
  rows one_record !! "K7Q2" = Some stored /\
  rows one_record !! "WRONGKEY" = None /\
  screen (trace (handleFileDownload cli (receiver one_file ["WRONGKEY"; "xyz123"])))
  = [PromptShown "Enter the shared key:";
     PromptShown "Enter your passcode to get download link";
     SpinnerStart "Varifying passcode...";
     SpinnerStop "Wrong shared key!"] /\
  screen (trace (handleFileDownload cli (receiver one_file ["K7Q2"; "wrongpass"])))
  = [PromptShown "Enter the shared key:";
     PromptShown "Enter your passcode to get download link";
     SpinnerStart "Varifying passcode...";
     SpinnerStop "Wrong passcode!"] /\
  screen (trace (handleFileDownload cli (receiver one_file ["WRONGKEY"; "xyz123"])))
  <> screen (trace (handleFileDownload cli (receiver one_file ["K7Q2"; "wrongpass"]))).
Proof.
  split; [reflexivity|]. split; [reflexivity|].
  split; [reflexivity|]. split; [reflexivity|].
  vm_compute. discriminate.
Qed.

Lemma credential_failures_named_apart_witness :
  let miss := handleFileDownload cli (receiver one_file ["WRONGKEY"; "xyz123"]) in
  let mismatch := handleFileDownload cli (receiver one_file ["K7Q2"; "wrongpass"]) in
  outcome miss = Returned tt /\
  outcome mismatch = Returned tt /\
  screen (trace miss) = download_prompts [] ++ [SpinnerStop "Wrong shared key!"] /\
  screen (trace mismatch) = download_prompts [] ++ [SpinnerStop "Wrong passcode!"] /\
  screen (trace miss) <> screen (trace mismatch) /\
  (forall c, Invoked c ∈ trace miss ++ trace mismatch -> touches_storage c = false).
Proof.
  apply (credential_failures_named_apart cli
           (receiver one_file ["WRONGKEY"; "xyz123"])
           (receiver one_file ["K7Q2"; "wrongpass"])
           "WRONGKEY" "xyz123" [] [] one_record
           "K7Q2" "wrongpass" [] [] one_record stored []); reflexivity.
Defined.

Lemma failed_upload_persists_nothing_witness :
  let r := handleFileUpload cli (sender no_records drive_down "xyz123") in
  outcome r = Returned tt /\
  (forall h k f, Invoked (CreateSecureFile h k f) ∉ trace r) /\
  records (world r) = no_records /\
  fst (getSecureFile (db cli) "K7Q2" (records (world r))) = Resolved None /\
  screen (trace r) = failed_upload_screen [] "K7Q2" network_error.
Proof.
  apply (failed_upload_persists_nothing cli (sender no_records drive_down "xyz123")
           "report.pdf" "xyz123" [] [] "K7Q2" ["s1"] "s1$s1#xyz123" []
           network_error drive_down); reflexivity.
Defined.

(** C3, refuted as stated: the run whose record write fails after the upload
    went through shows the screen of the run whose upload failed, although
    it leaves [file-0] in the storage backend with no record pointing at it. *)
Lemma orphaned_file_not_told_apart :
  let write_fails := handleFileUpload cli (sender failing_records drive_up "xyz123") in
  let upload_fails := handleFileUpload cli (sender no_records drive_down "xyz123") in
  files (remote (world write_fails)) !! "file-0" = Some ("report.pdf", "%PDF-1.7") /\
  rows (records (world write_fails)) !! "K7Q2" = None /\
  files (remote (world upload_fails)) !! "file-0" = None /\
  outcome write_fails = outcome upload_fails /\
  screen (trace write_fails) = screen (trace upload_fails).
Proof. vm_compute. repeat split. Qed.

Lemma record_write_failure_witness :
  let r := handleFileUpload cli (sender failing_records drive_up "xyz123") in
  outcome r = Returned tt /\
  screen (trace r) = failed_upload_screen [] "K7Q2" network_error.
Proof.
  pose proof (record_write_failure_shown_as_upload_failure cli
                (sender failing_records drive_up "xyz123")
                "report.pdf" "xyz123" [] [] "K7Q2" ["s1"] "s1$s1#xyz123" []
                (mkDriveFile "file-0")
                (mkStorage {[ "file-0" := ("report.pdf", "%PDF-1.7") ]} local_disk 1 None)
                network_error failing_records
                eq_refl eq_refl eq_refl eq_refl eq_refl) as H.
  cbv zeta in H. destruct H as (Ho & _ & _ & Hs & _). exact (conj Ho Hs).
Defined.

(** C4, refuted as stated: the receiver's download goes to the [Downloads]
    folder under the name of the remote file, and nothing the caller types
    at the prompts makes the flow write it to [/tmp/report.pdf]. *)
Lemma destination_not_chosen_by_caller :
  Invoked (DownloadFile "file-0" "/home/u/Downloads/report.pdf")
    ∈ trace (handleFileDownload cli (receiver one_file ["K7Q2"; "xyz123"])) /\
  ~ exists input,
      Invoked (DownloadFile "file-0" "/tmp/report.pdf")
        ∈ trace (handleFileDownload cli (receiver one_file input)).
Proof.
  split.
  - vm_compute. repeat first [apply list_elem_of_here | apply list_elem_of_further].
  - intros [input Hin]. apply download_calls in Hin. cbn in Hin.
    destruct Hin as [fileName Heq]. discriminate Heq.
Qed.

Lemma download_destination_is_computed_witness :
  let r := handleFileDownload cli (receiver one_file ["K7Q2"; "xyz123"]) in
  Invoked (DownloadFile "file-0" "/home/u/Downloads/report.pdf") ∈ trace r /\
  forall f dest, Invoked (DownloadFile f dest) ∈ trace r ->
                 f = "file-0" /\ dest = "/home/u/Downloads/report.pdf".
Proof.
  pose proof (download_destination_is_computed cli
                (receiver one_file ["K7Q2"; "xyz123"])
                "K7Q2" "xyz123" [] [] one_record stored [] "report.pdf" one_file
                (Resolved tt)
                (mkStorage (files one_file)
                   (<["/home/u/Downloads/report.pdf" := "%PDF-1.7"]> local_disk) 1 None)
                eq_refl eq_refl eq_refl eq_refl eq_refl eq_refl) as H.
  cbv zeta in H. destruct H as (Hin & Honly & _). exact (conj Hin Honly).
Defined.

Lemma empty_passcode_rejected_by_hash_witness :
  outcome (handleFileUpload cli (sender no_records drive_up "")) = Thrown InvalidInput.
Proof.
  exact (proj1 (proj2 (empty_passcode_rejected_by_hash toy_kdf) _ _ cli
                  (sender no_records drive_up "")
                  "report.pdf" [] [] "K7Q2" ["s1"] eq_refl eq_refl eq_refl)).
Defined.

Lemma mismatch_is_false_not_error_witness :
  let r := handleFileDownload cli (receiver one_file ["K7Q2"; "wrongpass"]) in
  outcome r = Returned tt /\
  screen (trace r) = download_prompts [] ++ [SpinnerStop "Wrong passcode!"].
Proof.
  apply (proj2 (proj2 (mismatch_is_false_not_error toy_kdf)) _ _ cli
           (receiver one_file ["K7Q2"; "wrongpass"])
           "K7Q2" "wrongpass" [] [] stored one_record "s1" "s1#xyz123");
    try reflexivity.
  vm_compute. discriminate.
Defined.

Lemma storage_failure_not_credential_failure_witness :
  let r := handleFileDownload cli (receiver drive_up ["K7Q2"; "xyz123"]) in
  outcome r = Returned tt /\
  remote (world r) = drive_up /\
  screen (trace r)
  = failed_download_screen [] (StorageFailure "remote file missing") /\
  ~ credential_failure_shown (screen (trace r)).
Proof.
  apply (storage_failure_not_credential_failure cli
           (receiver drive_up ["K7Q2"; "xyz123"])
           "K7Q2" "xyz123" [] [] one_record stored []);
    try reflexivity.
  apply metadata_rejects. reflexivity.
Defined.

Lemma key_shown_before_upload_witness :
  exists key e1 pre post,
    generate ["K7Q2"; "s1"] = (Resolved key, e1) /\
    trace (handleFileUpload cli (sender no_records drive_down "xyz123"))
    = pre ++ SpinnerStop ("Shared key: " +:+ key) :: post /\
    Invoked GenerateSharedKey ∈ pre /\
    (forall p, Invoked (UploadFile p) ∉ pre) /\
    Invoked (UploadFile "report.pdf") ∈ post /\
    SpinnerStop ("Shared key: " +:+ key)
      ∈ screen (trace (handleFileUpload cli (sender no_records drive_down "xyz123"))).
Proof.
  apply (key_shown_before_upload cli (sender no_records drive_down "xyz123")
           "report.pdf").
  vm_compute. repeat first [apply list_elem_of_here | apply list_elem_of_further].
Defined.

Lemma download_validates_key_not_passcode_witness :
  let r := handleFileDownload cli (receiver one_file [""; "K7Q2"; ""]) in
  (forall key, Invoked (GetSecureFile key) ∈ trace r -> key <> "") /\
  Invoked (ComparePasscode "" "s1$s1#xyz123") ∈ trace r.
Proof.
  pose proof (download_validates_key_not_passcode cli
                (receiver one_file [""; "K7Q2"; ""])) as H.
  cbv zeta in H. destruct H as [Hkey Hpass].
  split; [exact Hkey|].
  exact (proj1 (Hpass "K7Q2" [] [ValidationShown "Must provide the shared key"]
                  stored one_record eq_refl eq_refl)).
Defined.

End ScenarioFacts.

(** * Further properties of [cli.ts] *)

(** The value a prompt returns is one of the pending lines. *)
Lemma text_rounds_returned_in validate pending value rest evs :
  text_rounds validate pending = (Returned value, rest, evs) -> value ∈ pending.
Proof.
  revert rest evs.
  induction pending as [|v pending IH]; simpl; intros rest evs Heq; [discriminate|].
  destruct (validate v) as [msg|].
  - destruct (text_rounds validate pending) as [[o' rest'] evs'].
    inversion Heq; subst. apply list_elem_of_further. eapply IH; eauto.
  - inversion Heq; subst. apply list_elem_of_here.
Qed.

Section FlowCoverage.

Context {D G E : Type}.
Variable this : Cli D G E.

(** What the upload flow can call, whatever the world and the input, and
    what each call is made of. *)
Lemma upload_calls (w : World D G E) c :
  Invoked c ∈ trace (handleFileUpload this w) ->
  match c with
  | GenerateSharedKey => True
  | HashPasscode passcode =>
      exists filePath rest evs,
        text_rounds (validate_filePath this) (stdin w)
          = (Returned filePath, passcode :: rest, evs)
  | UploadFile filePath =>
      exists passcode rest evs,
        text_rounds (validate_filePath this) (stdin w)
          = (Returned filePath, passcode :: rest, evs)
  | CreateSecureFile hashed key file =>
      exists filePath passcode rest evs e1 e2 uploaded g',
        text_rounds (validate_filePath this) (stdin w)
          = (Returned filePath, passcode :: rest, evs) /\
        generateSharedKey (modules this) (entropy w) = (Resolved key, e1) /\
        hashPasscode (bcrypt this) passcode e1 = (Resolved hashed, e2) /\
        uploadFile (googleDriveService this) filePath (remote w)
          = (Resolved uploaded, g') /\
        file = id uploaded
  | _ => False
  end.
Proof.
  destruct w as [d0 g0 e0 input]; cbn [stdin entropy remote].
  destruct (text_rounds (validate_filePath this) input) as [[o rest] evs] eqn:Ht.
  destruct o as [path|e|]; cycle 1.
  { by apply text_rounds_not_thrown in Ht. }
  { flow_exec. intros Hin. calls_of Hin. }
  destruct rest as [|passcode rest].
  { flow_exec. intros Hin. calls_of Hin. }
  destruct (generateSharedKey (modules this) e0) as [[key|err] e1] eqn:Hgen; cycle 1.
  { flow_exec. intros Hin. calls_of Hin. done. }
  destruct (hashPasscode (bcrypt this) passcode e1) as [[hashed|err] e2] eqn:Hhash;
    cycle 1.
  { flow_exec. intros Hin. calls_of Hin; [done | by eauto]. }
  destruct (uploadFile (googleDriveService this) path g0) as [[file|err] g1] eqn:Hup;
    cycle 1.
  { flow_exec. intros Hin. calls_of Hin; [done | by eauto | by eauto]. }
  destruct (createSecureFile (db this) hashed key (id file) d0)
    as [[row|err] d1] eqn:Hput.
  { flow_exec. intros Hin.
    calls_of Hin; [done | by eauto | by eauto |].
    by exists path, passcode, rest, evs, e1, e2, file, g1. }
  { flow_exec. intros Hin.
    calls_of Hin; [done | by eauto | by eauto |].
    by exists path, passcode, rest, evs, e1, e2, file, g1. }
Qed.


Lemma validate_filePath_passes (value : string) :
  validate_filePath this value = None <->
  value <> "" /\ existsSync (modules this) value = true.
Proof.
  unfold validate_filePath. destruct value as [|c v]; cbn.
  - split; [discriminate | by intros [? _]].
  - destruct (existsSync (modules this) (String c v)); cbn; split;
      try done; try by intros [_ ?].
Qed.

(** X9. The file-path prompt turns down every empty submission with ["File
    path cannot be empty"] and every path that does not exist with ["File
    does not exist"], one message each and in order, and answers with the
    first submission that is a non-empty existing path, leaving the lines
    after it pending. *)
Theorem filePath_prompt_rounds (rejected : list string) (filePath : string)
    (rest : list string) :
  Forall (fun v => v = "" \/ existsSync (modules this) v = false) rejected ->
  filePath <> "" ->
  existsSync (modules this) filePath = true ->
  text_rounds (validate_filePath this) (rejected ++ filePath :: rest)
  = (Returned filePath, rest, map filePath_complaint rejected).
Proof.
  intros Hrej Hne Hex.
  assert (Hpass : validate_filePath this filePath = None)
    by (by apply validate_filePath_passes).
  induction Hrej as [|v rejected Hv _ IH]; cbn [app map text_rounds].
  - by rewrite Hpass.
  - rewrite IH. unfold filePath_complaint, validate_filePath at 1.
    destruct v as [|c v]; cbn; [reflexivity|].
    destruct Hv as [Hv|Hv]; [discriminate Hv|]. by rewrite Hv.
Qed.


(** X1. When every step resolves, the upload flow returns after filing one
    record: [createSecureFile] gets the digest [hashPasscode] made, the key
    that was generated and shown, and the id of the uploaded file; the
    screen ends with the success message and the note. *)
Theorem upload_success_files_the_shown_key
    (w : World D G E) filePath passcode rest evs key e1 hashed e2 file g' row d' :
  text_rounds (validate_filePath this) (stdin w)
    = (Returned filePath, passcode :: rest, evs) ->
  generateSharedKey (modules this) (entropy w) = (Resolved key, e1) ->
  hashPasscode (bcrypt this) passcode e1 = (Resolved hashed, e2) ->
  uploadFile (googleDriveService this) filePath (remote w) = (Resolved file, g') ->
  createSecureFile (db this) hashed key (id file) (records w) = (Resolved row, d') ->
  let r := handleFileUpload this w in
  outcome r = Returned tt /\
  world r = mkWorld d' g' e2 rest /\
  trace r = PromptShown "Please enter the file path:" :: evs ++
    [PromptShown "Set a passcode";
     SpinnerStart "Generating a shared key...";
     Invoked GenerateSharedKey;
     SpinnerStop ("Shared key: " +:+ key);
     Invoked (HashPasscode passcode);
     SpinnerStart "Processing file...";
     Invoked (UploadFile filePath);
     Invoked (CreateSecureFile hashed key (id file));
     SpinnerStop "File successfully uploaded!";
     NoteShown
       "Share the passcode and shared key to the user who will download the file"
       "info"] /\
  screen (trace r) = upload_preamble evs key ++
    [SpinnerStop "File successfully uploaded!";
     NoteShown
       "Share the passcode and shared key to the user who will download the file"
       "info"].
Proof.
  intros Ht Hgen Hhash Hup Hput.
  destruct w as [d0 g0 e0 input]; cbn [stdin records entropy remote] in *.
  cbv zeta. flow_exec.
  split; [reflexivity|]. split; [reflexivity|]. split; [reflexivity|].
  rewrite upload_preamble_eq. by rewrite (screen_prompted _ _ _ _ _ _ _ Ht).
Qed.


(** X4. The calls before the [try] block of the upload flow are not
    guarded: when [generateSharedKey] throws, or when [hashPasscode]
    rejects, the flow throws that error. Nothing was uploaded or recorded
    by then; in the second case the key is already on the screen. *)
Theorem upload_errors_before_try_are_thrown
    (w : World D G E) filePath passcode rest evs :
  text_rounds (validate_filePath this) (stdin w)
    = (Returned filePath, passcode :: rest, evs) ->
  let r := handleFileUpload this w in
  (forall err e1,
     generateSharedKey (modules this) (entropy w) = (Rejected err, e1) ->
     outcome r = Thrown err /\
     records (world r) = records w /\ remote (world r) = remote w /\
     screen (trace r) = PromptShown "Please enter the file path:" :: evs ++
       [PromptShown "Set a passcode"; SpinnerStart "Generating a shared key..."]) /\
  (forall key e1 err e2,
     generateSharedKey (modules this) (entropy w) = (Resolved key, e1) ->
     hashPasscode (bcrypt this) passcode e1 = (Rejected err, e2) ->
     outcome r = Thrown err /\
     records (world r) = records w /\ remote (world r) = remote w /\
     screen (trace r) = PromptShown "Please enter the file path:" :: evs ++
       [PromptShown "Set a passcode"; SpinnerStart "Generating a shared key...";
        SpinnerStop ("Shared key: " +:+ key)]).
Proof.
  intros Ht. destruct w as [d0 g0 e0 input]; cbn [stdin records entropy remote] in *.
  cbv zeta. split.
  - intros err e1 Hgen. flow_exec. repeat split.
    by rewrite (screen_prompted _ _ _ _ _ _ _ Ht).
  - intros key e1 err e2 Hgen Hhash. flow_exec. repeat split.
    by rewrite (screen_prompted _ _ _ _ _ _ _ Ht).
Qed.

(** X5. The lookup and the passcode comparison of the download flow are
    not guarded either: when [getSecureFile] or [comparePasscode] rejects,
    the flow throws that error, shows no message after the spinner started
    and leaves the storage backend alone. *)
Theorem download_errors_before_try_are_thrown
    (w : World D G E) key passcode rest evs :
  text_rounds validate_sharedKey (stdin w) = (Returned key, passcode :: rest, evs) ->
  let r := handleFileDownload this w in
  (forall err d,
     getSecureFile (db this) key (records w) = (Rejected err, d) ->
     outcome r = Thrown err /\ remote (world r) = remote w /\
     screen (trace r) = download_prompts evs) /\
  (forall file d err e',
     getSecureFile (db this) key (records w) = (Resolved (Some file), d) ->
     comparePasscode (bcrypt this) passcode (hashedPassCode file) (entropy w)
       = (Rejected err, e') ->
     outcome r = Thrown err /\ remote (world r) = remote w /\
     screen (trace r) = download_prompts evs).
Proof.
  intros Ht. destruct w as [d0 g0 e0 input]; cbn [stdin records entropy remote] in *.
  cbv zeta. split.
  - intros err d Hget. flow_exec. repeat split.
    by rewrite (screen_prompted _ _ _ _ _ _ _ Ht).
  - intros file d err e' Hget Hcmp. flow_exec. repeat split.
    by rewrite (screen_prompted _ _ _ _ _ _ _ Ht).
Qed.

(** What stands behind a call to the storage backend in the download flow,
    whatever the world and the input. *)
Lemma download_gate (w : World D G E) c :
  Invoked c ∈ trace (handleFileDownload this w) ->
  touches_storage c = true ->
  exists key passcode rest evs file d e',
    text_rounds validate_sharedKey (stdin w) = (Returned key, passcode :: rest, evs) /\
    getSecureFile (db this) key (records w) = (Resolved (Some file), d) /\
    comparePasscode (bcrypt this) passcode (hashedPassCode file) (entropy w)
      = (Resolved true, e') /\
    match c with
    | GetFileMetadata f => f = fileId file
    | DownloadFile f destinationPath =>
        exists fileName g',
          getFileMetadata (googleDriveService this) (fileId file) (remote w)
            = (Resolved (Some fileName), g') /\
          fileName <> "" /\
          f = fileId file /\
          destinationPath =
          path_join (modules this)
            (path_join (modules this) (homedir (modules this)) "Downloads") fileName
    | _ => False
    end.
Proof.
  destruct w as [d0 g0 e0 input]; cbn [stdin records entropy remote].
  destruct (text_rounds validate_sharedKey input) as [[o rest] evs] eqn:Ht.
  destruct o as [key|e|]; cycle 1.
  { by apply text_rounds_not_thrown in Ht. }
  { flow_exec. intros Hin. calls_of Hin. }
  destruct rest as [|passcode rest].
  { flow_exec. intros Hin. calls_of Hin. }
  destruct (getSecureFile (db this) key d0) as [[[file|]|err] d1] eqn:Hget; cycle 1.
  { flow_exec. intros Hin. calls_of Hin. discriminate. }
  { flow_exec. intros Hin. calls_of Hin. discriminate. }
  destruct (comparePasscode (bcrypt this) passcode (hashedPassCode file) e0)
    as [[[|]|err] e1] eqn:Hcmp; cycle 1.
  { flow_exec. intros Hin. calls_of Hin; discriminate. }
  { flow_exec. intros Hin. calls_of Hin; discriminate. }
  destruct (getFileMetadata (googleDriveService this) (fileId file) g0)
    as [[fileName|err] g1] eqn:Hmeta; cycle 1.
  { flow_exec. intros Hin. calls_of Hin; try discriminate.
    intros _. by exists key, passcode, rest, evs, file, d1, e1. }
  destruct fileName as [[|ch nm]|].
  { flow_exec. intros Hin. calls_of Hin; try discriminate.
    intros _. by exists key, passcode, rest, evs, file, d1, e1. }
  2: { flow_exec. intros Hin. calls_of Hin; try discriminate.
       intros _. by exists key, passcode, rest, evs, file, d1, e1. }
  destruct (downloadFile (googleDriveService this) (fileId file)
              (path_join (modules this)
                 (path_join (modules this) (homedir (modules this)) "Downloads")
                 (String ch nm)) g1) as [[[]|err] g2] eqn:Hdl.
  - flow_exec. intros Hin. calls_of Hin; try discriminate.
    + intros _. by exists key, passcode, rest, evs, file, d1, e1.
    + intros _. exists key, passcode, rest, evs, file, d1, e1.
      do 3 (split; [done|]). by exists (String ch nm), g1.
  - flow_exec. intros Hin. calls_of Hin; try discriminate.
    + intros _. by exists key, passcode, rest, evs, file, d1, e1.
    + intros _. exists key, passcode, rest, evs, file, d1, e1.
      do 3 (split; [done|]). by exists (String ch nm), g1.
Qed.


(** X7. Whatever the world and the input, [downloadFile] is called only
    for the file of the record found, after [getFileMetadata] resolved for
    that file to a name that is not empty, and with the path made of the
    home directory, [Downloads] and that name. A [null], [undefined] or
    empty name never reaches [downloadFile]. *)
Theorem download_only_of_a_named_file (w : World D G E) f destinationPath :
  Invoked (DownloadFile f destinationPath) ∈ trace (handleFileDownload this w) ->
  exists key file d fileName g',
    getSecureFile (db this) key (records w) = (Resolved (Some file), d) /\
    f = fileId file /\
    getFileMetadata (googleDriveService this) f (remote w)
      = (Resolved (Some fileName), g') /\
    fileName <> "" /\
    destinationPath =
    path_join (modules this)
      (path_join (modules this) (homedir (modules this)) "Downloads") fileName.
Proof.
  intros Hin.
  destruct (download_gate w _ Hin eq_refl)
    as (key & passcode & rest & evs & file & d & e' & Ht & Hget & Hcmp &
        fileName & g' & Hmeta & Hne & -> & ->).
  by exists key, file, d, fileName, g'.
Qed.

(** X8. Each flow keeps to its own collaborator methods, whatever happens:
    the upload flow generates, hashes, uploads and records, and never looks
    a key up before it writes; the download flow looks up, compares, reads
    metadata and downloads, and never writes a record or uploads. *)
Theorem flows_keep_to_their_methods (w : World D G E) (c : ServiceCall) :
  (Invoked c ∈ trace (handleFileUpload this w) -> upload_method c = true) /\
  (Invoked c ∈ trace (handleFileDownload this w) -> download_method c = true).
Proof.
  split; intros Hin.
  - apply upload_calls in Hin. by destruct c.
  - apply download_calls in Hin. by destruct c.
Qed.

Lemma no_outro_in_flow (t : list Event) msg : OutroShown msg ∉ map InFlow t.
Proof.
  intros Hin. apply list_elem_of_fmap in Hin as (ev & Hev & _). discriminate Hev.
Qed.


End FlowCoverage.

(** ** The further properties on the scenarios *)

Section CoverageWitnesses.

Import SpecModel Scenario.

Lemma upload_success_witness :
  let r := handleFileUpload cli (sender no_records drive_up "xyz123") in
  outcome r = Returned tt /\
  rows (records (world r)) !! "K7Q2" = Some stored /\
  screen (trace r) = upload_preamble [] "K7Q2" ++
    [SpinnerStop "File successfully uploaded!";
     NoteShown
       "Share the passcode and shared key to the user who will download the file"
       "info"].
Proof.
  pose proof (upload_success_files_the_shown_key cli
                (sender no_records drive_up "xyz123")
                "report.pdf" "xyz123" [] [] "K7Q2" ["s1"] "s1$s1#xyz123" []
                (mkDriveFile "file-0")
                (mkStorage (<["file-0" := ("report.pdf", "%PDF-1.7")]> ∅) local_disk 1 None)
                stored (mkStore (<["K7Q2" := stored]> ∅) None)
                eq_refl eq_refl eq_refl eq_refl eq_refl) as H.
  cbv zeta in H. destruct H as (Ho & Hw & _ & Hs).
  split; [exact Ho|]. split; [|exact Hs]. rewrite Hw. reflexivity.
Defined.



Lemma upload_errors_before_try_witness :
  outcome (handleFileUpload cli
             (mkWorld no_records drive_up [] ["report.pdf"; "xyz123"]))
  = Thrown Fatal /\
  outcome (handleFileUpload cli (sender no_records drive_up "")) = Thrown InvalidInput.
Proof.
  split.
  - exact (proj1 (proj1 (upload_errors_before_try_are_thrown cli
                           (mkWorld no_records drive_up [] ["report.pdf"; "xyz123"])
                           "report.pdf" "xyz123" [] [] eq_refl)
                    Fatal [] eq_refl)).
  - exact (proj1 (proj2 (upload_errors_before_try_are_thrown cli
                           (sender no_records drive_up "")
                           "report.pdf" "" [] [] eq_refl)
                    "K7Q2" ["s1"] InvalidInput ["s1"] eq_refl eq_refl)).
Defined.

(** A store whose record has a digest without the separator. *)
Lemma download_errors_before_try_witness :
  let corrupt := mkSecureFile "corrupt" "K7Q2" "file-0" in
  let w := mkWorld (mkStore {[ "K7Q2" := corrupt ]} None) one_file []
             ["K7Q2"; "xyz123"] in
  outcome (handleFileDownload cli w) = Thrown MalformedDigest /\
  remote (world (handleFileDownload cli w)) = one_file /\
  screen (trace (handleFileDownload cli w)) = download_prompts [].
Proof.
  exact (proj2 (download_errors_before_try_are_thrown cli
                  (mkWorld (mkStore {[ "K7Q2" := mkSecureFile "corrupt" "K7Q2" "file-0" ]}
                              None) one_file [] ["K7Q2"; "xyz123"])
                  "K7Q2" "xyz123" [] [] eq_refl)
               (mkSecureFile "corrupt" "K7Q2" "file-0")
               (mkStore {[ "K7Q2" := mkSecureFile "corrupt" "K7Q2" "file-0" ]} None)
               MalformedDigest [] eq_refl eq_refl).
Defined.


Lemma download_only_of_a_named_file_witness :
  exists key file d fileName g',
    get key one_record = (Resolved (Some file), d) /\
    "file-0" = fileId file /\
    metadata "file-0" one_file = (Resolved (Some fileName), g') /\
    fileName <> "" /\
    "/home/u/Downloads/report.pdf" = join (join "/home/u" "Downloads") fileName.
Proof.
  apply (download_only_of_a_named_file cli (receiver one_file ["K7Q2"; "xyz123"])
           "file-0" "/home/u/Downloads/report.pdf").
  vm_compute. repeat first [apply list_elem_of_here | apply list_elem_of_further].
Defined.

Lemma filePath_prompt_rounds_witness :
  text_rounds (validate_filePath cli) ([""; "nope.txt"] ++ "report.pdf" :: ["xyz123"])
  = (Returned "report.pdf", ["xyz123"],
     [ValidationShown "File path cannot be empty";
      ValidationShown "File does not exist"]).
Proof.
  apply (filePath_prompt_rounds cli [""; "nope.txt"] "report.pdf" ["xyz123"]).
  - constructor; [left; reflexivity|].
    constructor; [right; reflexivity|]. constructor.
  - discriminate.
  - reflexivity.
Defined.


End CoverageWitnesses.
